(** * Media files, pages, sites and migrations of the Integreat CMS

    A shallow embedding of the model helpers of the Integreat CMS:
    - [src/src/cms/models/media/media_file.py]: [upload_path],
      [upload_path_thumbnail], [MediaFile.url], [MediaFile.thumbnail_url],
      [MediaFile.serialize];
    - [integreat_cms/cms/models/pages/abstract_base_page.py]:
      [AbstractBasePage.archived];
    - [backend/cms/models/site.py]: [Site.STATUS];
    - [integreat_cms/cms/migrations/0005_grant_imprint_deletion_permission.py]:
      [add_roles], [remove_roles].

    Python strings are [string]; the database tables touched by the code are
    stdpp finite maps indexed by primary key; exceptions raised by the
    framework are the [Raise] branch of a small result type. *)

From Stdlib Require Import Ascii ZArith Lia.
From stdpp Require Import base gmap sets list strings.

Open Scope string_scope.

(** ** Python runtime helpers *)

(** Exceptions that the embedded code can raise. *)
Inductive exc :=
  | DoesNotExist                  (* Model.objects.get found no row *)
  | MultipleObjectsReturned       (* Model.objects.get found several rows *)
  | ValueError (msg : string)     (* e.g. FieldFile.path without a file *)
  | DataError                     (* value too long for its column *)
  | IntegrityError.               (* unique constraint violated *)

Inductive result (A : Type) :=
  | Ok (a : A)
  | Raise (e : exc).
Arguments Ok {A} a.
Arguments Raise {A} e.

Definition bind {A B} (r : result A) (f : A -> result B) : result B :=
  match r with
  | Ok a => f a
  | Raise e => Raise e
  end.


(** Decimal rendering of a non-negative integer, as [str(n)] / an f-string. *)
Fixpoint show_nat_aux (fuel n : nat) (acc : string) : string :=
  match fuel with
  | O => acc
  | S f =>
      let acc' := String (ascii_of_nat (48 + n mod 10)) acc in
      if Nat.ltb n 10 then acc' else show_nat_aux f (n / 10) acc'
  end.

Definition show_nat (n : nat) : string := show_nat_aux (S n) n "".

(** [str.rfind(c)]: index of the last occurrence of [c], or [-1]. *)
Fixpoint rfind_from (c : ascii) (s : string) (i : Z) (best : Z) : Z :=
  match s with
  | EmptyString => best
  | String d s' =>
      rfind_from c s' (i + 1)%Z (if Ascii.eqb c d then i else best)
  end.

Definition rfind (c : ascii) (s : string) : Z := rfind_from c s 0%Z (-1)%Z.

(** [s[i]] for [0 <= i < len(s)]. *)
Definition char_at (s : string) (i : Z) : option ascii :=
  String.get (Z.to_nat i) s.

(** [s[:i]] and [s[i:]] for [0 <= i <= len(s)]. *)
Definition prefix_upto (s : string) (i : Z) : string :=
  String.substring 0 (Z.to_nat i) s.
Definition suffix_from (s : string) (i : Z) : string :=
  String.substring (Z.to_nat i) (String.length s - Z.to_nat i) s.

(** The [while filenameIndex < dotIndex] loop of [genericpath._splitext]:
    is some character in [s[i:dot]] different from ['.']? *)
Fixpoint non_dot_between (s : string) (i : Z) (steps : nat) : bool :=
  match steps with
  | O => false
  | S k =>
      match char_at s i with
      | Some c => if Ascii.eqb c "." then non_dot_between s (i + 1)%Z k else true
      | None => false
      end
  end.

(** [os.path.splitext] on POSIX ([posixpath.splitext], [sep = '/'],
    [altsep = None], [extsep = '.']). *)
Definition splitext (p : string) : string * string :=
  let sepIndex := rfind "/"%char p in
  let dotIndex := rfind "."%char p in
  if Z.ltb sepIndex dotIndex then
    let filenameIndex := (sepIndex + 1)%Z in
    if non_dot_between p filenameIndex (Z.to_nat (dotIndex - filenameIndex)%Z)
    then (prefix_upto p dotIndex, suffix_from p dotIndex)
    else (p, "")
  else (p, "").

(** Truthiness of a Python string. *)
Definition str_truthy (s : string) : bool :=
  match s with EmptyString => false | _ => true end.

(** [str.startswith]. *)
Definition startswith (s pre : string) : bool := String.prefix pre s.

(** ** Time *)

(** The local time read by [time.strftime]. *)
Record clock := mk_clock { tm_year : nat; tm_mon : nat }.

(** Two-digit zero-padded field, as [%m]. *)
Definition pad2 (n : nat) : string :=
  if Nat.ltb n 10 then "0" ++ show_nat n else show_nat n.

(** [strftime('%Y/%m')]. *)
Definition strftime_Y_m (now : clock) : string :=
  show_nat (tm_year now) ++ "/" ++ pad2 (tm_mon now).

(** ** Media library ([cms/models/media/media_file.py]) *)

(** A region, as far as the media code looks at it. *)
Record Region := mkRegion { region_id : nat }.

(** A [FieldFile] is represented by its [name]; a file field is truthy
    exactly when its name is non-empty. *)
Module MediaFile.
Record MediaFile := mk {
  id : option nat;                  (* None before the first save *)
  file : string;
  thumbnail : string;
  type : string;
  name : string;
  parent_directory : option nat;
  region : option Region;           (* None: global file *)
  alt_text : string;
  uploaded_date : Z
}.
End MediaFile.
Import MediaFile (MediaFile).

(** The [MediaFile] table, indexed by primary key. *)
Abbreviation media_table := (gmap nat MediaFile).

(** [MediaFile.objects.get(id=pk)]. *)
Definition objects_get (db : media_table) (pk : nat) : result MediaFile :=
  match db !! pk with
  | Some m => Ok m
  | None => Raise DoesNotExist
  end.

(** [if instance.id:] -- the primary key when it is truthy. *)
Definition truthy_id (i : option nat) : option nat :=
  match i with
  | Some n => if Nat.eqb n 0 then None else Some n
  | None => None
  end.

(** [upload_path(instance, filename)], at local time [now]. *)
Definition upload_path (db : media_table) (now : clock)
    (instance : MediaFile) (filename : string) : result string :=
  let fresh :=
    let region_directory :=
      match MediaFile.region instance with
      | Some r => "sites/" ++ show_nat (region_id r) ++ "/"
      | None => ""
      end in
    region_directory ++ strftime_Y_m now ++ "/" ++ filename in
  match truthy_id (MediaFile.id instance) with
  | Some pk =>
      match objects_get db pk with
      | Raise e => Raise e
      | Ok original_instance =>
          if str_truthy (MediaFile.file original_instance)
          then Ok (MediaFile.file original_instance)
          else Ok fresh
      end
  | None => Ok fresh
  end.

(** [upload_path_thumbnail(instance, filename)]; [filename] is unused. *)
Definition upload_path_thumbnail (db : media_table)
    (instance : MediaFile) (filename : string) : result string :=
  let fresh :=
    let '(name, extension) := splitext (MediaFile.file instance) in
    name ++ "_thumbnail" ++ extension in
  match truthy_id (MediaFile.id instance) with
  | Some pk =>
      match objects_get db pk with
      | Raise e => Raise e
      | Ok original_instance =>
          if str_truthy (MediaFile.thumbnail original_instance)
          then Ok (MediaFile.thumbnail original_instance)
          else Ok fresh
      end
  | None => Ok fresh
  end.

(** The dictionary returned by [MediaFile.serialize]. *)
Module Serialized.
Record Serialized := mk {
  id : option nat;
  name : string;
  altText : string;
  type : string;
  typeDisplay : string;
  thumbnailUrl : option string;
  url : option string;
  uploadedDate : string;
  isGlobal : bool
}.
End Serialized.
Import Serialized (Serialized).

(** [OSError] raised by [os.path.getmtime]. *)
Inductive OSError := ENOENT | EACCES | EIO.

Section MediaFileMethods.
(** [settings.BASE_URL]. *)
Variable BASE_URL : string.
(** [default_storage.url(name)] and [default_storage.path(name)]. *)
Variable storage_url : string -> string.
Variable storage_path : string -> string.
(** [self.get_type_display()] for a [type] value. *)
Variable get_type_display : string -> string.
(** [localize(timezone.localtime(d))]. *)
Variable localize_localtime : Z -> string.
(** [os.path.getmtime(path)], rendered by the f-string, or the
    [OSError] it raises. *)
Variable getmtime : string -> OSError + string.

(** [MediaFile.url]. *)
Definition url (self : MediaFile) : option string :=
  if str_truthy (MediaFile.file self)
  then Some (BASE_URL ++ storage_url (MediaFile.file self))
  else None.

(** [MediaFile.thumbnail_url]. *)
Definition thumbnail_url (self : MediaFile) : option string :=
  if negb (str_truthy (MediaFile.thumbnail self)) then
    if startswith (MediaFile.type self) "image" then url self else None
  else Some (BASE_URL ++ storage_url (MediaFile.thumbnail self)).

(** [self.file.path]: [FieldFile._require_file] then [storage.path]. *)
Definition file_path (self : MediaFile) : result string :=
  if str_truthy (MediaFile.file self)
  then Ok (storage_path (MediaFile.file self))
  else Raise (ValueError "The 'file' attribute has no file associated with it.").

(** [MediaFile.serialize]. *)
Definition serialize (self : MediaFile) : result Serialized :=
  let thumbnail_url0 := thumbnail_url self in
  let thumbnail_url1 :=
    match thumbnail_url0 with
    | Some t =>
        if str_truthy t then
          bind (file_path self) (fun p =>
            match getmtime p with
            | inl _ => Ok thumbnail_url0          (* logger.error *)
            | inr mtime => Ok (Some (t ++ "?" ++ mtime))
            end)
        else Ok thumbnail_url0
    | None => Ok thumbnail_url0
    end in
  bind thumbnail_url1 (fun tu =>
    Ok {| Serialized.id := MediaFile.id self;
          Serialized.name := MediaFile.name self;
          Serialized.altText := MediaFile.alt_text self;
          Serialized.type := MediaFile.type self;
          Serialized.typeDisplay := get_type_display (MediaFile.type self);
          Serialized.thumbnailUrl := tu;
          Serialized.url := url self;
          Serialized.uploadedDate :=
            localize_localtime (MediaFile.uploaded_date self);
          Serialized.isGlobal :=
            match MediaFile.region self with None => true | Some _ => false end
       |}).
End MediaFileMethods.

(** ** Pages ([cms/models/pages/abstract_base_page.py]) *)

(** The field that [AbstractBasePage] adds to [AbstractContentModel]. *)
Record AbstractBasePage := mkAbstractBasePage {
  explicitly_archived : bool
}.

(** [AbstractBasePage.archived]: an alias of [explicitly_archived]; the
    hierarchical [Page] subclass overrides it. *)
Definition archived (self : AbstractBasePage) : bool :=
  explicitly_archived self.

(** ** Sites ([backend/cms/models/site.py]) *)

Module Site.
Definition ACTIVE : string := "acti".
Definition HIDDEN : string := "hidd".
Definition ARCHIVED : string := "arch".

Definition STATUS : list (string * string) :=
  [(ACTIVE, "Active"); (HIDDEN, "Hidden"); (ARCHIVED, "Archived")].

(** The character columns of [Site]; the other columns (flags, floats,
    dates, the language tree key) play no part here. *)
Record Site := mk {
  title : string;                   (* CharField(max_length=200) *)
  name : string;                    (* URLField(max_length=60, unique=True) *)
  status : string;                  (* CharField(max_length=4, choices=STATUS) *)
  postal_code : string;             (* CharField(max_length=10) *)
  admin_mail : string               (* EmailField(), max_length=254 *)
}.

(** A [CharField] left unset holds its empty default. *)
Definition blank : Site := mk "" "" "" "" "".

(** The choice validation of [status] ([Field.validate], run by
    [full_clean] and by model forms): the value is a key of [STATUS]. *)
Definition status_in_choices (s : string) : bool :=
  existsb (String.eqb s) (map fst STATUS).

(** The column constraints of the table: [varchar(n)] lengths. *)
Definition columns_ok (x : Site) : bool :=
  Nat.leb (String.length (title x)) 200 &&
  Nat.leb (String.length (name x)) 60 &&
  Nat.leb (String.length (status x)) 4 &&
  Nat.leb (String.length (postal_code x)) 10 &&
  Nat.leb (String.length (admin_mail x)) 254.

(** [Model.save()] of a [Site] with primary key [pk]: the database checks
    column lengths and the uniqueness of [name]; choices are not checked. *)
Definition save (db : gmap nat Site) (pk : nat) (x : Site) : result (gmap nat Site) :=
  if negb (columns_ok x) then Raise DataError
  else if existsb (fun '(k, y) => negb (Nat.eqb k pk) && String.eqb (name y) (name x))
                  (map_to_list db)
  then Raise IntegrityError
  else Ok (<[pk := x]> db).
End Site.
Import Site (Site).


(** ** Migration 0005: imprint deletion permission *)

Module Migration0005.
(** [auth.Permission]: primary key and codename. *)
Record Permission := mkPermission { perm_id : nat; codename : string }.

(** The [auth] tables the migration reads and writes: groups by their
    unique name, each with the set of its permissions' keys, and the
    permission rows. *)
Record apps := mkApps {
  groups : gmap string (gset nat);
  permissions : list Permission
}.

(** [Group.objects.get(name=n)] -- the group's permission set. *)
Definition group_get (st : apps) (n : string) : result (gset nat) :=
  match groups st !! n with
  | Some ps => Ok ps
  | None => Raise DoesNotExist
  end.

(** [Permission.objects.get(codename=c)]. *)
Definition permission_get (st : apps) (c : string) : result nat :=
  match List.filter (fun p => String.eqb (codename p) c) (permissions st) with
  | [p] => Ok (perm_id p)
  | [] => Raise DoesNotExist
  | _ => Raise MultipleObjectsReturned
  end.

Definition set_group (st : apps) (n : string) (ps : gset nat) : apps :=
  mkApps (<[n := ps]> (groups st)) (permissions st).

(** [add_roles]: [management_group.permissions.add(...)]. *)
Definition add_roles (st : apps) : result apps :=
  bind (group_get st "MANAGEMENT") (fun management_group =>
  bind (permission_get st "delete_imprintpage") (fun delete_imprint_permission =>
  Ok (set_group st "MANAGEMENT"
        (management_group ∪ {[delete_imprint_permission]})))).

(** [remove_roles]: [management_group.permissions.remove(...)]. *)
Definition remove_roles (st : apps) : result apps :=
  bind (group_get st "MANAGEMENT") (fun management_group =>
  bind (permission_get st "delete_imprintpage") (fun delete_imprint_permission =>
  Ok (set_group st "MANAGEMENT"
        (management_group ∖ {[delete_imprint_permission]})))).
End Migration0005.

(** ** Language trees *)

Module LanguageTree.
(** Modelled from the spec: the [LanguageTreeNode] model and its form
    ([LanguageTreeNodeForm]) are not part of the sources. A node belongs
    to one region, has an optional parent node and an active flag; the
    tree of a region must be acyclic and single-rooted, which the form
    validation enforces and the data layer does not. *)
Record LanguageTreeNode := mkNode {
  language : nat;
  region : nat;
  parent : option nat;
  active : bool
}.

Abbreviation node_table := (gmap nat LanguageTreeNode).

(** Following parent links from [k] ends at a node without parent
    within [fuel] steps. *)
Fixpoint reaches_root (db : node_table) (fuel : nat) (k : nat) : bool :=
  match fuel with
  | O => false
  | S f =>
      match db !! k with
      | None => false
      | Some n =>
          match parent n with
          | None => true
          | Some p => reaches_root db f p
          end
      end
  end.

(** The parent of a node exists and lies in the same region. *)
Definition parent_ok (db : node_table) (n : LanguageTreeNode) : bool :=
  match parent n with
  | None => true
  | Some p =>
      match db !! p with
      | Some pn => Nat.eqb (region pn) (region n)
      | None => false
      end
  end.

(** Number of nodes without parent in region [r]. *)
Definition roots_in (db : node_table) (r : nat) : nat :=
  length (List.filter
    (fun '(_, n) => Nat.eqb (region n) r &&
                    match parent n with None => true | Some _ => false end)
    (map_to_list db)).

(** Every region's tree is acyclic (every node reaches a root; a cycle
    never does) and has exactly one root. *)
Definition tree_invariant (db : node_table) : bool :=
  forallb (fun '(k, n) =>
             parent_ok db n && reaches_root db (size db) k &&
             Nat.eqb (roots_in db (region n)) 1)
          (map_to_list db).

(** The data layer: saving node [k] stores it unconditionally. *)
Definition save_node (db : node_table) (k : nat) (n : LanguageTreeNode)
  : node_table := <[k := n]> db.

(** A form submission creating or editing node [k]. *)
Record submission := mkSubmission { sub_key : nat; sub_node : LanguageTreeNode }.

(** Modelled from the spec: [LanguageTreeNodeForm] validation, which
    accepts a submission when the tree it yields keeps the invariant. *)
Definition is_valid (db : node_table) (s : submission) : bool :=
  tree_invariant (save_node db (sub_key s) (sub_node s)).

(** Handling a submission: a valid form is saved, an invalid one is
    rejected with its errors and changes nothing. *)
Definition submit (db : node_table) (s : submission) : node_table :=
  if is_valid db s then save_node db (sub_key s) (sub_node s) else db.

Definition submit_all (db : node_table) (ss : list submission) : node_table :=
  fold_left submit ss db.
End LanguageTree.

(** Replace the [thumbnailUrl] entry of a serialized record. *)
Definition set_thumbnailUrl (r : Serialized) (t : option string) : Serialized :=
  {| Serialized.id := Serialized.id r;
     Serialized.name := Serialized.name r;
     Serialized.altText := Serialized.altText r;
     Serialized.type := Serialized.type r;
     Serialized.typeDisplay := Serialized.typeDisplay r;
     Serialized.thumbnailUrl := t;
     Serialized.url := Serialized.url r;
     Serialized.uploadedDate := Serialized.uploadedDate r;
     Serialized.isGlobal := Serialized.isGlobal r |}.

(** The media file with primary key [pk] (Django's [instance.id = pk]). *)
Definition with_id (m : MediaFile) (pk : option nat) : MediaFile :=
  {| MediaFile.id := pk; MediaFile.file := MediaFile.file m;
     MediaFile.thumbnail := MediaFile.thumbnail m; MediaFile.type := MediaFile.type m;
     MediaFile.name := MediaFile.name m;
     MediaFile.parent_directory := MediaFile.parent_directory m;
     MediaFile.region := MediaFile.region m; MediaFile.alt_text := MediaFile.alt_text m;
     MediaFile.uploaded_date := MediaFile.uploaded_date m |}.

(** The media file after its [file] field was stored under [name]
    ([FieldFile.save] sets [instance.file.name]). *)
Definition with_file (m : MediaFile) (name : string) : MediaFile :=
  {| MediaFile.id := MediaFile.id m; MediaFile.file := name;
     MediaFile.thumbnail := MediaFile.thumbnail m; MediaFile.type := MediaFile.type m;
     MediaFile.name := MediaFile.name m;
     MediaFile.parent_directory := MediaFile.parent_directory m;
     MediaFile.region := MediaFile.region m; MediaFile.alt_text := MediaFile.alt_text m;
     MediaFile.uploaded_date := MediaFile.uploaded_date m |}.

(** ** Sample data *)

Definition demo_region : Region := mkRegion 1.

(** A new image upload to region 1, before its first save. *)
Definition new_upload : MediaFile :=
  {| MediaFile.id := None; MediaFile.file := "A.jpg"; MediaFile.thumbnail := "";
     MediaFile.type := "image/jpeg"; MediaFile.name := "A.jpg";
     MediaFile.parent_directory := None; MediaFile.region := Some demo_region;
     MediaFile.alt_text := ""; MediaFile.uploaded_date := 0%Z |}.

(** The same file once stored with primary key 7. *)
Definition stored_upload : MediaFile :=
  {| MediaFile.id := Some 7; MediaFile.file := "sites/1/2022/01/A.jpg";
     MediaFile.thumbnail := "sites/1/2022/01/A_thumbnail.jpg";
     MediaFile.type := "image/jpeg"; MediaFile.name := "A.jpg";
     MediaFile.parent_directory := None; MediaFile.region := Some demo_region;
     MediaFile.alt_text := "a"; MediaFile.uploaded_date := 1642291200%Z |}.

Definition demo_db : media_table := <[7 := stored_upload]> ∅.

Definition jan_2022 : clock := mk_clock 2022 1.
Definition mar_2023 : clock := mk_clock 2023 3.

Definition demo_url (n : string) : string := "/media/" ++ n.
Definition demo_path (n : string) : string := "/var/www/media/" ++ n.
Definition demo_display (t : string) : string := t.
Definition demo_date (d : Z) : string := "Jan. 16, 2022".
Definition fs_missing (p : string) : OSError + string := inl ENOENT.
Definition fs_present (p : string) : OSError + string := inr "1642291200.0".

(** A site saved through [Model.save()] without form validation. *)
Definition unvalidated_site : Site :=
  Site.mk "Demo" "https://demo.example" "" "10000" "admin@integreat.com".

Definition demo_apps : Migration0005.apps :=
  Migration0005.mkApps
    (<["MANAGEMENT" := {[1; 2]}]> (<["EDITOR" := {[1]}]> ∅))
    [Migration0005.mkPermission 1 "view_page";
     Migration0005.mkPermission 2 "change_page";
     Migration0005.mkPermission 3 "delete_imprintpage"].

Definition root_en : LanguageTree.LanguageTreeNode := LanguageTree.mkNode 1 1 None true.
Definition second_root : LanguageTree.LanguageTreeNode := LanguageTree.mkNode 2 1 None true.
Definition demo_tree : LanguageTree.node_table := <[1 := root_en]> ∅.

Definition holding_apps : Migration0005.apps :=
  Migration0005.mkApps (<["MANAGEMENT" := {[3]}]> ∅)
    [Migration0005.mkPermission 3 "delete_imprintpage"].

Definition no_management_apps : Migration0005.apps :=
  Migration0005.mkApps (<["EDITOR" := {[1]}]> ∅)
    [Migration0005.mkPermission 3 "delete_imprintpage"].


(** ** Tests *)

Example show_nat_2026 : show_nat 2026 = "2026". Proof. reflexivity. Qed.
Example splitext_ex1 : splitext "sites/1/2022/01/A_EOHRFQ2.jpg" = ("sites/1/2022/01/A_EOHRFQ2", ".jpg").
Proof. reflexivity. Qed.
Example splitext_ex2 : splitext "dir.d/.bashrc" = ("dir.d/.bashrc", ""). Proof. reflexivity. Qed.
Example splitext_ex3 : splitext "a.tar.gz" = ("a.tar", ".gz"). Proof. reflexivity. Qed.
Example strftime_ex : strftime_Y_m (mk_clock 2022 1) = "2022/01". Proof. reflexivity. Qed.
Example lt_ex1 : LanguageTree.tree_invariant
  (<[2 := LanguageTree.mkNode 2 1 (Some 1) true]> (<[1 := LanguageTree.mkNode 1 1 None true]> ∅)) = true.
Proof. vm_compute. reflexivity. Qed.
Example lt_ex2 : LanguageTree.tree_invariant
  (<[2 := LanguageTree.mkNode 2 1 (Some 3) true]> (<[3 := LanguageTree.mkNode 3 1 (Some 2) true]> (<[1 := LanguageTree.mkNode 1 1 None true]> ∅))) = false.
Proof. vm_compute. reflexivity. Qed.
Example upload_path_new :
  upload_path ∅ jan_2022 new_upload "A.jpg" = Ok "sites/1/2022/01/A.jpg".
Proof. reflexivity. Qed.
Example upload_path_resave :
  upload_path demo_db mar_2023 stored_upload "B.png" = Ok "sites/1/2022/01/A.jpg".
Proof. reflexivity. Qed.
Example upload_path_thumbnail_new :
  upload_path_thumbnail ∅ (MediaFile.mk None "sites/1/2022/01/A_EOHRFQ2.jpg" "" "image/jpeg"
                             "A.jpg" None (Some demo_region) "" 0%Z) "A_thumbnail.jpg"
  = Ok "sites/1/2022/01/A_EOHRFQ2_thumbnail.jpg".
Proof. reflexivity. Qed.
Example serialize_missing :
  option_map Serialized.thumbnailUrl
    (match serialize "https://cms.example" demo_url demo_path demo_display demo_date fs_missing stored_upload
     with Ok r => Some r | Raise _ => None end)
  = Some (Some "https://cms.example/media/sites/1/2022/01/A_thumbnail.jpg").
Proof. reflexivity. Qed.
Example serialize_present :
  option_map Serialized.thumbnailUrl
    (match serialize "https://cms.example" demo_url demo_path demo_display demo_date fs_present stored_upload
     with Ok r => Some r | Raise _ => None end)
  = Some (Some "https://cms.example/media/sites/1/2022/01/A_thumbnail.jpg?1642291200.0").
Proof. reflexivity. Qed.

(** ** Upload paths *)

Lemma string_app_assoc (a b c : string) : (a ++ b) ++ c = a ++ (b ++ c).
Proof.
  induction a as [|x a IH]; [reflexivity|].
  change (String x ((a ++ b) ++ c) = String x (a ++ (b ++ c))).
  now rewrite IH.
Qed.

(** C1: once a media file is stored with a file, [upload_path] returns the
    stored file name, whatever the new file name and the current date. *)
Theorem upload_path_stable (db : media_table) (now : clock)
    (instance original_instance : MediaFile) (pk : nat) (filename : string) :
  MediaFile.id instance = Some pk -> pk <> 0 ->
  db !! pk = Some original_instance ->
  str_truthy (MediaFile.file original_instance) = true ->
  upload_path db now instance filename = Ok (MediaFile.file original_instance).
Proof.
  intros Hid Hpk Hdb Hfile.
  unfold upload_path, truthy_id, objects_get.
  rewrite Hid. destruct (Nat.eqb_spec pk 0) as [E|_]; [contradiction|].
  now rewrite Hdb, Hfile.
Qed.

Lemma upload_path_stable_witness :
  upload_path demo_db mar_2023 stored_upload "B.png"
  = Ok (MediaFile.file stored_upload).
Proof. apply (upload_path_stable demo_db mar_2023 stored_upload stored_upload 7 "B.png");
  [reflexivity | lia | reflexivity | reflexivity]. Defined.

(** C2 as stated fails: the thumbnail path of a new media file is not a
    function of its region and the date; two new files of the same region
    on the same day get different thumbnail paths. *)
Lemma upload_path_thumbnail_not_region_date :
  ~ (exists g : option Region -> clock -> string,
       forall (db : media_table) (now : clock) (instance : MediaFile) (filename : string),
         truthy_id (MediaFile.id instance) = None ->
         upload_path_thumbnail db instance filename
         = Ok (g (MediaFile.region instance) now)).
Proof.
  intros [g Hg].
  pose proof (Hg ∅ jan_2022 new_upload "x" eq_refl) as H1.
  pose proof (Hg ∅ jan_2022 (MediaFile.mk None "B.jpg" "" "image/jpeg" "B.jpg" None
                               (Some demo_region) "" 0%Z) "x" eq_refl) as H2.
  cbv in H1, H2. rewrite <- H1 in H2. discriminate.
Qed.

(** C2 (amended): for a media file without a truthy primary key,
    [upload_path_thumbnail] inserts ["_thumbnail"] before the extension of
    the file's current name; the [filename] argument plays no part. *)
Theorem upload_path_thumbnail_from_file (db : media_table)
    (instance : MediaFile) (filename : string) :
  truthy_id (MediaFile.id instance) = None ->
  upload_path_thumbnail db instance filename
  = Ok (fst (splitext (MediaFile.file instance)) ++ "_thumbnail"
        ++ snd (splitext (MediaFile.file instance))).
Proof.
  intros Hid. unfold upload_path_thumbnail. rewrite Hid.
  now destruct (splitext (MediaFile.file instance)).
Qed.

Lemma upload_path_thumbnail_from_file_witness :
  upload_path_thumbnail ∅ new_upload "ignored.png"
  = Ok (fst (splitext "A.jpg") ++ "_thumbnail" ++ snd (splitext "A.jpg")).
Proof. apply (upload_path_thumbnail_from_file ∅ new_upload "ignored.png"); reflexivity. Defined.

(** C3: for a media file without a truthy primary key, [upload_path] is
    ["sites/<region id>/"] (omitted for a global file) followed by the
    current year, month and the file name. *)
Theorem upload_path_new_file (db : media_table) (now : clock)
    (instance : MediaFile) (filename : string) :
  truthy_id (MediaFile.id instance) = None ->
  (forall r, MediaFile.region instance = Some r ->
     upload_path db now instance filename
     = Ok ("sites/" ++ show_nat (region_id r) ++ "/" ++ show_nat (tm_year now)
           ++ "/" ++ pad2 (tm_mon now) ++ "/" ++ filename)) /\
  (MediaFile.region instance = None ->
     upload_path db now instance filename
     = Ok (show_nat (tm_year now) ++ "/" ++ pad2 (tm_mon now) ++ "/" ++ filename)).
Proof.
  intros Hid. unfold upload_path, strftime_Y_m. rewrite Hid.
  split; [intros r Hr | intros Hr]; rewrite Hr; simpl;
    now rewrite !string_app_assoc.
Qed.

Lemma upload_path_new_file_witness :
  upload_path ∅ jan_2022 new_upload "A.jpg" = Ok "sites/1/2022/01/A.jpg".
Proof.
  destruct (upload_path_new_file ∅ jan_2022 new_upload "A.jpg" eq_refl) as [H _].
  rewrite (H demo_region eq_refl). reflexivity.
Defined.

(** ** Media file properties *)

Section MediaFileFacts.
Variable BASE_URL : string.
Variable storage_url storage_path : string -> string.
Variable get_type_display : string -> string.
Variable localize_localtime : Z -> string.

(** C5: the serialized record marks a media file as global exactly when
    it has no region. *)
Theorem serialize_isGlobal (getmtime : string -> OSError + string)
    (m : MediaFile) (r : Serialized) :
  serialize BASE_URL storage_url storage_path get_type_display
    localize_localtime getmtime m = Ok r ->
  (Serialized.isGlobal r = true <-> MediaFile.region m = None).
Proof.
  unfold serialize, bind.
  destruct (thumbnail_url BASE_URL storage_url m) as [t|];
    [destruct (str_truthy t); [destruct (file_path storage_path m) as [p|e];
       [destruct (getmtime p)|]|]|];
    intros H; try discriminate; injection H as <-; simpl;
    destruct (MediaFile.region m); split; congruence.
Qed.

(** C8: [thumbnail_url] is the file's [url] for an image without
    thumbnail, [None] for any other file without thumbnail, and
    [BASE_URL] followed by the thumbnail's storage url otherwise. *)
Theorem thumbnail_url_cases (m : MediaFile) :
  (str_truthy (MediaFile.thumbnail m) = false ->
   startswith (MediaFile.type m) "image" = true ->
   thumbnail_url BASE_URL storage_url m = url BASE_URL storage_url m) /\
  (str_truthy (MediaFile.thumbnail m) = false ->
   startswith (MediaFile.type m) "image" = false ->
   thumbnail_url BASE_URL storage_url m = None) /\
  (str_truthy (MediaFile.thumbnail m) = true ->
   thumbnail_url BASE_URL storage_url m
   = Some (BASE_URL ++ storage_url (MediaFile.thumbnail m))).
Proof.
  unfold thumbnail_url.
  repeat split; intros Ht; rewrite Ht; simpl; try reflexivity;
    intros Hi; now rewrite Hi.
Qed.

(** C10: when reading the modification time of a stored file fails with
    an [OSError], [serialize] still returns a record; its [thumbnailUrl]
    is [thumbnail_url] without suffix and all its other entries are those
    of the record obtained when the read succeeds or fails otherwise. *)
Theorem serialize_oserror_caught
    (getmtime getmtime' : string -> OSError + string) (m : MediaFile) (e : OSError) :
  str_truthy (MediaFile.file m) = true ->
  getmtime (storage_path (MediaFile.file m)) = inl e ->
  exists r r',
    serialize BASE_URL storage_url storage_path get_type_display
      localize_localtime getmtime m = Ok r /\
    serialize BASE_URL storage_url storage_path get_type_display
      localize_localtime getmtime' m = Ok r' /\
    Serialized.thumbnailUrl r = thumbnail_url BASE_URL storage_url m /\
    r = set_thumbnailUrl r' (Serialized.thumbnailUrl r).
Proof.
  intros Hfile Hmt.
  unfold serialize, file_path. rewrite Hfile.
  destruct (thumbnail_url BASE_URL storage_url m) as [t|] eqn:Htu.
  - destruct (str_truthy t); simpl.
    + rewrite Hmt.
      destruct (getmtime' (storage_path (MediaFile.file m))); simpl;
        eexists _, _; repeat split; reflexivity.
    + eexists _, _; repeat split; reflexivity.
  - simpl. eexists _, _; repeat split; reflexivity.
Qed.
End MediaFileFacts.

Lemma serialize_isGlobal_witness :
  exists r,
    serialize "https://cms.example" demo_url demo_path demo_display demo_date
      fs_present stored_upload = Ok r /\
    (Serialized.isGlobal r = true <-> MediaFile.region stored_upload = None).
Proof.
  eexists. split; [reflexivity|].
  apply (serialize_isGlobal "https://cms.example" demo_url demo_path demo_display
           demo_date fs_present stored_upload).
  reflexivity.
Defined.

Lemma serialize_oserror_caught_witness :
  exists r r',
    serialize "https://cms.example" demo_url demo_path demo_display demo_date
      fs_missing stored_upload = Ok r /\
    serialize "https://cms.example" demo_url demo_path demo_display demo_date
      fs_present stored_upload = Ok r' /\
    Serialized.thumbnailUrl r = thumbnail_url "https://cms.example" demo_url stored_upload /\
    r = set_thumbnailUrl r' (Serialized.thumbnailUrl r).
Proof.
  apply (serialize_oserror_caught "https://cms.example" demo_url demo_path demo_display
           demo_date fs_missing fs_present stored_upload ENOENT); reflexivity.
Defined.

(** ** Pages *)

(** C4: at the level of [AbstractBasePage], a page is archived exactly
    when it is explicitly archived. *)
Theorem archived_is_explicitly_archived (p : AbstractBasePage) :
  archived p = explicitly_archived p /\
  (archived p = true <-> explicitly_archived p = true).
Proof. unfold archived. split; reflexivity. Qed.

(** ** Site status *)

(** C6 as stated fails: saving a [Site] does not check [choices], so a site
    with the empty default status is persisted. *)
Lemma site_status_not_enforced_on_save :
  ~ (forall (db : gmap nat Site) (pk : nat) (x : Site) (db' : gmap nat Site),
       Site.save db pk x = Ok db' ->
       forall k y, db' !! k = Some y ->
       Site.status y = Site.ACTIVE \/ Site.status y = Site.HIDDEN \/
       Site.status y = Site.ARCHIVED).
Proof.
  intros H.
  assert (Hs : Site.save ∅ 1 unvalidated_site = Ok (<[1 := unvalidated_site]> ∅))
    by reflexivity.
  destruct (H _ _ _ _ Hs 1 unvalidated_site) as [E|[E|E]];
    [apply lookup_insert_eq | discriminate E ..].
Qed.

(** C6 (amended): [STATUS] lists exactly [ACTIVE], [HIDDEN] and
    [ARCHIVED], and the choice validation of [status] accepts exactly these
    values; the data layer only stores the status as given, of length at
    most 4. *)
Theorem site_status_choices :
  map fst Site.STATUS = [Site.ACTIVE; Site.HIDDEN; Site.ARCHIVED] /\
  (forall s, Site.status_in_choices s = true <->
             s = Site.ACTIVE \/ s = Site.HIDDEN \/ s = Site.ARCHIVED) /\
  (forall (db : gmap nat Site) (pk : nat) (x : Site) (db' : gmap nat Site),
     Site.save db pk x = Ok db' ->
     db' !! pk = Some x /\ String.length (Site.status x) <= 4).
Proof.
  split; [reflexivity|]. split.
  - intros s. unfold Site.status_in_choices. simpl.
    rewrite !orb_true_iff, !String.eqb_eq.
    unfold Site.ACTIVE, Site.HIDDEN, Site.ARCHIVED. intuition discriminate.
  - intros db pk x db'. unfold Site.save, Site.columns_ok.
    destruct (Nat.leb_spec (String.length (Site.title x)) 200),
             (Nat.leb_spec (String.length (Site.name x)) 60),
             (Nat.leb_spec (String.length (Site.status x)) 4),
             (Nat.leb_spec (String.length (Site.postal_code x)) 10),
             (Nat.leb_spec (String.length (Site.admin_mail x)) 254);
      simpl; try discriminate.
    destruct (existsb _ _); [discriminate|].
    intros Hsave; injection Hsave as <-.
    split; [apply lookup_insert_eq | assumption].
Qed.

(** ** Migration 0005 *)

(** C9: starting from a state whose [MANAGEMENT] group does not hold the
    [delete_imprintpage] permission, [add_roles] followed by
    [remove_roles] restores the state. *)
Theorem add_roles_remove_roles_inverse (st : Migration0005.apps)
    (ps : gset nat) (p : nat) :
  Migration0005.groups st !! "MANAGEMENT" = Some ps ->
  Migration0005.permission_get st "delete_imprintpage" = Ok p ->
  p ∉ ps ->
  exists st', Migration0005.add_roles st = Ok st' /\
              Migration0005.remove_roles st' = Ok st.
Proof.
  intros Hg Hp Hnot.
  unfold Migration0005.add_roles, Migration0005.group_get. rewrite Hg. simpl.
  rewrite Hp. simpl. eexists; split; [reflexivity|].
  unfold Migration0005.remove_roles, Migration0005.group_get,
    Migration0005.set_group. simpl.
  rewrite lookup_insert_eq. simpl.
  unfold Migration0005.permission_get in *. simpl. rewrite Hp. simpl.
  rewrite insert_insert_eq.
  replace ((ps ∪ {[p]}) ∖ {[p]}) with ps by set_solver.
  rewrite insert_id by exact Hg.
  now destruct st.
Qed.

Lemma add_roles_remove_roles_inverse_witness :
  exists st', Migration0005.add_roles demo_apps = Ok st' /\
              Migration0005.remove_roles st' = Ok demo_apps.
Proof.
  apply (add_roles_remove_roles_inverse demo_apps {[1; 2]} 3);
    [reflexivity | reflexivity | vm_compute; set_solver].
Defined.

(** ** Language trees *)

Lemma submit_keeps_invariant (db : LanguageTree.node_table) (s : LanguageTree.submission) :
  LanguageTree.tree_invariant db = true ->
  LanguageTree.tree_invariant (LanguageTree.submit db s) = true.
Proof.
  intros Hdb. unfold LanguageTree.submit.
  destruct (LanguageTree.is_valid db s) eqn:Hv; [exact Hv | exact Hdb].
Qed.

(** C7: every region's language tree is acyclic and single-rooted after any
    sequence of form submissions from a state where it is (the empty table
    is one), while a save through the data layer alone can break it. *)
Theorem language_tree_invariant_by_forms :
  (forall (db : LanguageTree.node_table) (ss : list LanguageTree.submission),
     LanguageTree.tree_invariant db = true ->
     LanguageTree.tree_invariant (LanguageTree.submit_all db ss) = true) /\
  LanguageTree.tree_invariant ∅ = true /\
  (exists (db : LanguageTree.node_table) k n,
     LanguageTree.tree_invariant db = true /\
     LanguageTree.tree_invariant (LanguageTree.save_node db k n) = false).
Proof.
  split; [|split].
  - intros db ss. unfold LanguageTree.submit_all.
    revert db. induction ss as [|s ss IH]; intros db Hdb; simpl.
    + exact Hdb.
    + apply IH, submit_keeps_invariant, Hdb.
  - reflexivity.
  - exists demo_tree, 2, second_root. split; vm_compute; reflexivity.
Qed.

(** ** [os.path.splitext] on paths *)

Lemma string_length_app (a b : string) :
  String.length (a ++ b) = String.length a + String.length b.
Proof.
  induction a as [|x a IH]; [reflexivity|].
  change (S (String.length (a ++ b)) = S (String.length a + String.length b)).
  now rewrite IH.
Qed.

Lemma string_app_nil (a : string) : a ++ "" = a.
Proof.
  induction a as [|x a IH]; [reflexivity|].
  change (String x (a ++ "") = String x a). now rewrite IH.
Qed.

Lemma rfind_from_ge (c : ascii) (s : string) : forall i best,
  (-1 <= best)%Z -> (0 <= i)%Z -> (-1 <= rfind_from c s i best)%Z.
Proof.
  induction s as [|d s IH]; intros i best Hb Hi; simpl; [exact Hb|].
  apply IH; [destruct (Ascii.eqb c d); lia | lia].
Qed.

Lemma rfind_from_lt (c : ascii) (s : string) : forall i best,
  (best < i)%Z -> (rfind_from c s i best < i + Z.of_nat (String.length s))%Z.
Proof.
  induction s as [|d s IH]; intros i best Hb; simpl; [lia|].
  specialize (IH (i + 1)%Z (if Ascii.eqb c d then i else best)).
  assert (H : ((if Ascii.eqb c d then i else best) < i + 1)%Z)
    by (destruct (Ascii.eqb c d); lia).
  specialize (IH H). lia.
Qed.

Lemma rfind_from_app (c : ascii) (s1 s2 : string) : forall i best,
  rfind_from c (s1 ++ s2) i best
  = rfind_from c s2 (i + Z.of_nat (String.length s1))%Z (rfind_from c s1 i best).
Proof.
  induction s1 as [|d s1 IH]; intros i best; simpl.
  - now rewrite Z.add_0_r.
  - rewrite IH. f_equal. lia.
Qed.

(** The search from offset [i] with fallback [best] in terms of [rfind]. *)
Lemma rfind_from_rfind (c : ascii) (s : string) : forall i best,
  rfind_from c s i best
  = if Z.eqb (rfind c s) (-1) then best else (i + rfind c s)%Z.
Proof.
  unfold rfind.
  induction s as [|d s IH]; intros i best; simpl; [reflexivity|].
  rewrite (IH (i + 1)%Z), (IH 1%Z).
  pose proof (rfind_from_ge c s 0 (-1) ltac:(lia) ltac:(lia)) as Hge.
  destruct (Z.eqb_spec (rfind_from c s 0 (-1)) (-1)) as [E|E].
  - destruct (Ascii.eqb c d); simpl; [|reflexivity].
    destruct (Z.eqb_spec 0 (-1)); [lia|]. lia.
  - destruct (Z.eqb_spec (1 + rfind_from c s 0 (-1)) (-1)); [lia|]. lia.
Qed.

Lemma string_get_app_r (a b : string) (n : nat) :
  String.get (String.length a + n) (a ++ b) = String.get n b.
Proof. induction a as [|x a IH]; [reflexivity|]. exact IH. Qed.

Lemma non_dot_between_app (a b : string) : forall steps i,
  (0 <= i)%Z ->
  non_dot_between (a ++ b) (Z.of_nat (String.length a) + i)%Z steps
  = non_dot_between b i steps.
Proof.
  induction steps as [|k IH]; intros i Hi; [reflexivity|]. simpl.
  unfold char_at.
  replace (Z.to_nat (Z.of_nat (String.length a) + i))
    with (String.length a + Z.to_nat i) by lia.
  rewrite string_get_app_r.
  destruct (String.get (Z.to_nat i) b) as [c|]; [|reflexivity].
  destruct (Ascii.eqb c "."); [|reflexivity].
  rewrite <- IH by lia. f_equal. lia.
Qed.

Lemma substring_app_prefix (a b : string) (m : nat) :
  String.substring 0 (String.length a + m) (a ++ b) = a ++ String.substring 0 m b.
Proof.
  induction a as [|x a IH]; [reflexivity|].
  change (String x (String.substring 0 (String.length a + m) (a ++ b))
          = String x (a ++ String.substring 0 m b)).
  now rewrite IH.
Qed.

Lemma substring_app_suffix (a b : string) (m l : nat) :
  String.substring (String.length a + m) l (a ++ b) = String.substring m l b.
Proof. induction a as [|x a IH]; [reflexivity|]. exact IH. Qed.

Lemma substring_full (s : string) : String.substring 0 (String.length s) s = s.
Proof.
  induction s as [|x s IH]; [reflexivity|].
  change (String x (String.substring 0 (String.length s) s) = String x s).
  now rewrite IH.
Qed.

Lemma substring_split (s : string) : forall n,
  n <= String.length s ->
  String.substring 0 n s ++ String.substring n (String.length s - n) s = s.
Proof.
  induction s as [|x s IH]; intros n Hn; simpl in *.
  - destruct n; [reflexivity | lia].
  - destruct n as [|n].
    + change (String x (String.substring 0 (String.length s) s) = String x s).
      now rewrite substring_full.
    + change (String x (String.substring 0 n s ++
                        String.substring n (String.length s - n) s) = String x s).
      rewrite IH by lia. reflexivity.
Qed.

Lemma rfind_lt (c : ascii) (s : string) :
  (rfind c s < Z.of_nat (String.length s))%Z.
Proof. unfold rfind. pose proof (rfind_from_lt c s 0 (-1) ltac:(lia)). lia. Qed.

Lemma rfind_ge (c : ascii) (s : string) : (-1 <= rfind c s)%Z.
Proof. unfold rfind. apply rfind_from_ge; lia. Qed.

(** Root and extension put back together give the path. *)
Lemma splitext_app (p : string) : fst (splitext p) ++ snd (splitext p) = p.
Proof.
  unfold splitext.
  destruct (Z.ltb _ _); [|apply string_app_nil].
  destruct (non_dot_between _ _ _); [|apply string_app_nil].
  simpl. unfold prefix_upto, suffix_from.
  apply substring_split. pose proof (rfind_lt "." p). lia.
Qed.

(** [splitext] only looks at the last path component. *)
Lemma splitext_dir (d0 f : string) :
  rfind "/" f = (-1)%Z ->
  splitext ((d0 ++ "/") ++ f)
  = ((d0 ++ "/") ++ fst (splitext f), snd (splitext f)).
Proof.
  intros Hslash.
  set (d := d0 ++ "/").
  assert (Hlen : String.length d = S (String.length d0))
    by (unfold d; rewrite string_length_app; simpl; lia).
  assert (Hsep : rfind "/" (d ++ f) = Z.of_nat (String.length d0)).
  { unfold rfind. rewrite rfind_from_app, rfind_from_rfind.
    rewrite Hslash. simpl.
    unfold d. rewrite rfind_from_app. simpl. lia. }
  assert (Hdotd : rfind "." d = rfind "." d0).
  { unfold rfind, d. rewrite rfind_from_app. reflexivity. }
  assert (Hdot : rfind "." (d ++ f)
                 = if Z.eqb (rfind "." f) (-1) then rfind "." d0
                   else (Z.of_nat (String.length d) + rfind "." f)%Z).
  { unfold rfind at 1. rewrite rfind_from_app, rfind_from_rfind.
    fold (rfind "." d). rewrite Hdotd. f_equal; lia. }
  unfold splitext. rewrite Hsep, Hdot, Hslash.
  pose proof (rfind_lt "." d0). pose proof (rfind_ge "." f).
  destruct (Z.eqb_spec (rfind "." f) (-1)) as [E|E].
  - rewrite E. simpl.
    destruct (Z.ltb_spec (Z.of_nat (String.length d0)) (rfind "." d0)); [lia|].
    reflexivity.
  - destruct (Z.ltb_spec (Z.of_nat (String.length d0))
                (Z.of_nat (String.length d) + rfind "." f)); [|lia].
    destruct (Z.ltb_spec (-1) (rfind "." f)); [|lia].
    replace (Z.of_nat (String.length d0) + 1)%Z
      with (Z.of_nat (String.length d) + 0)%Z by lia.
    rewrite non_dot_between_app by lia.
    replace (Z.to_nat (Z.of_nat (String.length d) + rfind "." f
                       - (Z.of_nat (String.length d) + 0)))
      with (Z.to_nat (rfind "." f - (-1 + 1))) by lia.
    change (-1 + 1)%Z with 0%Z.
    destruct (non_dot_between f 0 _); simpl; [|reflexivity].
    unfold prefix_upto, suffix_from.
    replace (Z.to_nat (Z.of_nat (String.length d) + rfind "." f))
      with (String.length d + Z.to_nat (rfind "." f)) by lia.
    rewrite substring_app_prefix, substring_app_suffix, string_length_app.
    do 2 f_equal. lia.
Qed.

(** ** Upload paths: further properties *)

Lemma upload_path_thumbnail_fresh (db : media_table)
    (instance : MediaFile) (filename : string) :
  truthy_id (MediaFile.id instance) = None ->
  upload_path_thumbnail db instance filename
  = Ok (fst (splitext (MediaFile.file instance)) ++ "_thumbnail"
        ++ snd (splitext (MediaFile.file instance))).
Proof.
  intros Hid. unfold upload_path_thumbnail. rewrite Hid.
  now destruct (splitext (MediaFile.file instance)).
Qed.

Lemma upload_path_thumbnail_fresh_dir (db : media_table)
    (instance : MediaFile) (filename d f : string) :
  truthy_id (MediaFile.id instance) = None ->
  MediaFile.file instance = (d ++ "/") ++ f ->
  rfind "/" f = (-1)%Z ->
  upload_path_thumbnail db instance filename
  = Ok ((d ++ "/") ++ fst (splitext f) ++ "_thumbnail" ++ snd (splitext f)).
Proof.
  intros Hid Hfile Hf.
  rewrite upload_path_thumbnail_fresh by exact Hid.
  rewrite Hfile, splitext_dir by exact Hf. simpl.
  now rewrite string_app_assoc.
Qed.

(** Once a media file is stored with a thumbnail, [upload_path_thumbnail]
    returns the stored thumbnail name, whatever the file name is now. *)
Theorem upload_path_thumbnail_stable (db : media_table)
    (instance original_instance : MediaFile) (pk : nat) (filename : string) :
  MediaFile.id instance = Some pk -> pk <> 0 ->
  db !! pk = Some original_instance ->
  str_truthy (MediaFile.thumbnail original_instance) = true ->
  upload_path_thumbnail db instance filename
  = Ok (MediaFile.thumbnail original_instance).
Proof.
  intros Hid Hpk Hdb Ht.
  unfold upload_path_thumbnail, truthy_id, objects_get.
  rewrite Hid. destruct (Nat.eqb_spec pk 0) as [E|_]; [contradiction|].
  now rewrite Hdb, Ht.
Qed.

Lemma upload_path_thumbnail_stable_witness :
  upload_path_thumbnail demo_db (with_file stored_upload "sites/1/2023/03/B.png") "B.png"
  = Ok (MediaFile.thumbnail stored_upload).
Proof.
  apply (upload_path_thumbnail_stable demo_db _ stored_upload 7 "B.png");
    [reflexivity | lia | reflexivity | reflexivity].
Defined.

(** A truthy primary key without a row in the table makes both upload path
    functions raise [DoesNotExist]. *)
Theorem upload_paths_missing_row (db : media_table) (now : clock)
    (instance : MediaFile) (pk : nat) (filename : string) :
  MediaFile.id instance = Some pk -> pk <> 0 -> db !! pk = None ->
  upload_path db now instance filename = Raise DoesNotExist /\
  upload_path_thumbnail db instance filename = Raise DoesNotExist.
Proof.
  intros Hid Hpk Hdb.
  unfold upload_path, upload_path_thumbnail, truthy_id, objects_get.
  rewrite Hid. destruct (Nat.eqb_spec pk 0) as [E|_]; [contradiction|].
  now rewrite Hdb.
Qed.

Lemma upload_paths_missing_row_witness :
  upload_path ∅ jan_2022 stored_upload "A.jpg" = Raise DoesNotExist /\
  upload_path_thumbnail ∅ stored_upload "A.jpg" = Raise DoesNotExist.
Proof. apply (upload_paths_missing_row ∅ jan_2022 stored_upload 7); [reflexivity | lia | reflexivity]. Defined.

(** A stored media file whose stored record has no file (no thumbnail)
    gets the path of a new upload from [upload_path]
    ([upload_path_thumbnail]). *)
Theorem upload_paths_stored_without_file (db : media_table) (now : clock)
    (instance original_instance : MediaFile) (pk : nat) (filename : string) :
  MediaFile.id instance = Some pk -> db !! pk = Some original_instance ->
  (str_truthy (MediaFile.file original_instance) = false ->
   upload_path db now instance filename
   = upload_path db now (with_id instance None) filename) /\
  (str_truthy (MediaFile.thumbnail original_instance) = false ->
   upload_path_thumbnail db instance filename
   = upload_path_thumbnail db (with_id instance None) filename).
Proof.
  intros Hid Hdb.
  unfold upload_path, upload_path_thumbnail, truthy_id, objects_get.
  rewrite Hid. simpl.
  destruct (Nat.eqb pk 0); [split; reflexivity|].
  rewrite Hdb. split; intros Hf; rewrite Hf; reflexivity.
Qed.

Lemma upload_paths_stored_without_file_witness :
  upload_path (<[7 := with_file stored_upload ""]> ∅) mar_2023 stored_upload "B.png"
  = upload_path (<[7 := with_file stored_upload ""]> ∅) mar_2023
      (with_id stored_upload None) "B.png".
Proof.
  apply (upload_paths_stored_without_file _ mar_2023 stored_upload
           (with_file stored_upload "") 7 "B.png"); reflexivity.
Defined.

(** The thumbnail name of a new media file is its file name with
    ["_thumbnail"] inserted: removing the inserted text gives the file name
    back. *)
Theorem upload_path_thumbnail_inserts_suffix (db : media_table)
    (instance : MediaFile) (filename : string) :
  truthy_id (MediaFile.id instance) = None ->
  exists root ext,
    upload_path_thumbnail db instance filename = Ok (root ++ "_thumbnail" ++ ext) /\
    root ++ ext = MediaFile.file instance.
Proof.
  intros Hid. exists (fst (splitext (MediaFile.file instance))),
                     (snd (splitext (MediaFile.file instance))).
  split; [apply upload_path_thumbnail_fresh, Hid | apply splitext_app].
Qed.

Lemma upload_path_thumbnail_inserts_suffix_witness :
  exists root ext,
    upload_path_thumbnail ∅ (with_file new_upload "sites/1/2022/01/A_EOHRFQ2.jpg") "x"
    = Ok (root ++ "_thumbnail" ++ ext) /\
    root ++ ext = "sites/1/2022/01/A_EOHRFQ2.jpg".
Proof.
  apply (upload_path_thumbnail_inserts_suffix ∅
           (with_file new_upload "sites/1/2022/01/A_EOHRFQ2.jpg") "x").
  reflexivity.
Defined.

(** The thumbnail of a new media file is stored in the directory of its
    file: for a file name [d ++ "/" ++ f] with no ['/'] in [f], the
    thumbnail name is [d ++ "/"] followed by the root of [f],
    ["_thumbnail"] and the extension of [f]. *)
Theorem upload_path_thumbnail_same_directory (db : media_table)
    (instance : MediaFile) (filename d f : string) :
  truthy_id (MediaFile.id instance) = None ->
  MediaFile.file instance = (d ++ "/") ++ f ->
  rfind "/" f = (-1)%Z ->
  upload_path_thumbnail db instance filename
  = Ok ((d ++ "/") ++ fst (splitext f) ++ "_thumbnail" ++ snd (splitext f)).
Proof.
  apply upload_path_thumbnail_fresh_dir.
Qed.

Lemma upload_path_thumbnail_same_directory_witness :
  upload_path_thumbnail ∅ (with_file new_upload "sites/1/2022/01/A_EOHRFQ2.jpg") "x"
  = Ok (("sites/1/2022/01" ++ "/") ++ fst (splitext "A_EOHRFQ2.jpg") ++ "_thumbnail"
        ++ snd (splitext "A_EOHRFQ2.jpg")).
Proof.
  apply (upload_path_thumbnail_same_directory ∅ _ "x" "sites/1/2022/01" "A_EOHRFQ2.jpg");
    reflexivity.
Defined.

(** Saving a new media file of a region: the file goes to
    ["sites/<region id>/<year>/<month>/" ++ filename] and, when it is stored
    under that name, its thumbnail to the same directory with
    ["_thumbnail"] before the extension of [filename] (no ['/'] in it). *)
Theorem new_upload_paths (db : media_table) (now : clock) (instance : MediaFile)
    (r : Region) (filename thumbnail_filename : string) :
  truthy_id (MediaFile.id instance) = None ->
  MediaFile.region instance = Some r ->
  rfind "/" filename = (-1)%Z ->
  let dir := "sites/" ++ show_nat (region_id r) ++ "/" ++ strftime_Y_m now ++ "/" in
  upload_path db now instance filename = Ok (dir ++ filename) /\
  upload_path_thumbnail db (with_file instance (dir ++ filename)) thumbnail_filename
  = Ok (dir ++ fst (splitext filename) ++ "_thumbnail" ++ snd (splitext filename)).
Proof.
  intros Hid Hr Hf dir. split.
  - unfold upload_path. rewrite Hid, Hr. unfold dir. now rewrite !string_app_assoc.
  - assert (Hdir : dir = ("sites/" ++ show_nat (region_id r) ++ "/" ++ strftime_Y_m now) ++ "/")
      by (unfold dir; now rewrite !string_app_assoc).
    rewrite Hdir.
    apply upload_path_thumbnail_fresh_dir; [exact Hid | reflexivity | exact Hf].
Qed.

Lemma new_upload_paths_witness :
  upload_path ∅ jan_2022 new_upload "A.jpg" = Ok ("sites/1/2022/01/" ++ "A.jpg") /\
  upload_path_thumbnail ∅ (with_file new_upload ("sites/1/2022/01/" ++ "A.jpg")) "A_t.jpg"
  = Ok ("sites/1/2022/01/" ++ fst (splitext "A.jpg") ++ "_thumbnail" ++ snd (splitext "A.jpg")).
Proof.
  exact (new_upload_paths ∅ jan_2022 new_upload demo_region "A.jpg" "A_t.jpg"
           eq_refl eq_refl eq_refl).
Defined.

Example new_upload_thumbnail_value :
  upload_path_thumbnail ∅ (with_file new_upload "sites/1/2022/01/A.jpg") "A_t.jpg"
  = Ok "sites/1/2022/01/A_thumbnail.jpg".
Proof. reflexivity. Qed.

(** ** Serialization: further properties *)

Section SerializeFacts.
Variable BASE_URL : string.
Variable storage_url storage_path : string -> string.
Variable get_type_display : string -> string.
Variable localize_localtime : Z -> string.

(** A media file has no thumbnail url exactly when it has no thumbnail and
    is not an image or has no file. *)
Theorem thumbnail_url_none_iff (m : MediaFile) :
  thumbnail_url BASE_URL storage_url m = None <->
  str_truthy (MediaFile.thumbnail m) = false /\
  (startswith (MediaFile.type m) "image" = false \/
   str_truthy (MediaFile.file m) = false).
Proof.
  unfold thumbnail_url, url.
  destruct (str_truthy (MediaFile.thumbnail m)), (startswith (MediaFile.type m) "image"),
    (str_truthy (MediaFile.file m)); simpl; intuition discriminate.
Qed.

(** [serialize] raises only the [ValueError] of [self.file.path], and
    exactly when the media file has a thumbnail with a non-empty url but no
    file. *)
Theorem serialize_raises_iff (getmtime : string -> OSError + string) (m : MediaFile) :
  ((exists e, serialize BASE_URL storage_url storage_path get_type_display
                localize_localtime getmtime m = Raise e) <->
   str_truthy (MediaFile.file m) = false /\
   str_truthy (MediaFile.thumbnail m) = true /\
   str_truthy (BASE_URL ++ storage_url (MediaFile.thumbnail m)) = true) /\
  (forall e, serialize BASE_URL storage_url storage_path get_type_display
               localize_localtime getmtime m = Raise e ->
   exists msg, e = ValueError msg).
Proof.
  set (ser := serialize BASE_URL storage_url storage_path get_type_display
                localize_localtime getmtime m).
  assert (Hcase :
    (str_truthy (MediaFile.file m) = false /\
     str_truthy (MediaFile.thumbnail m) = true /\
     str_truthy (BASE_URL ++ storage_url (MediaFile.thumbnail m)) = true /\
     ser = Raise (ValueError "The 'file' attribute has no file associated with it."))
    \/ exists r, ser = Ok r).
  { unfold ser, serialize, file_path.
    destruct (str_truthy (MediaFile.file m)) eqn:Hf.
    - right. destruct (thumbnail_url BASE_URL storage_url m) as [t|]; simpl;
        [destruct (str_truthy t); simpl;
         [destruct (getmtime (storage_path (MediaFile.file m)))|]|];
        eexists; reflexivity.
    - unfold thumbnail_url, url. rewrite Hf.
      destruct (str_truthy (MediaFile.thumbnail m)) eqn:Ht; simpl.
      + destruct (str_truthy (BASE_URL ++ storage_url (MediaFile.thumbnail m))) eqn:Hu.
        * left. repeat split; reflexivity.
        * right. eexists; reflexivity.
      + right. destruct (startswith (MediaFile.type m) "image");
          eexists; reflexivity. }
  destruct Hcase as [(Hf & Ht & Hu & Hr) | [r Hr]]; rewrite Hr.
  - split.
    + split; [intros _; tauto | intros _; eexists; reflexivity].
    + intros e He. injection He as <-. eexists; reflexivity.
  - split.
    + split; [intros [e He]; discriminate He |].
      intros (Hf & Ht & Hu).
      exfalso. revert Hr. unfold ser, serialize, file_path, thumbnail_url.
      cbv zeta. rewrite Hf, Ht. cbn -[str_truthy]. rewrite Hu.
      cbn -[str_truthy]. discriminate.
    + intros e He. discriminate He.
Qed.

(** When the file's modification time can be read, the serialized
    thumbnail url is [thumbnail_url] followed by ["?"] and that time. *)
Theorem serialize_mtime_suffix (getmtime : string -> OSError + string)
    (m : MediaFile) (u mtime : string) :
  str_truthy (MediaFile.file m) = true ->
  getmtime (storage_path (MediaFile.file m)) = inr mtime ->
  thumbnail_url BASE_URL storage_url m = Some u ->
  str_truthy u = true ->
  exists r, serialize BASE_URL storage_url storage_path get_type_display
              localize_localtime getmtime m = Ok r /\
            Serialized.thumbnailUrl r = Some (u ++ "?" ++ mtime).
Proof.
  intros Hf Hmt Htu Hu.
  unfold serialize, file_path. rewrite Htu, Hu, Hf. simpl. rewrite Hmt. simpl.
  eexists; split; reflexivity.
Qed.
End SerializeFacts.

Lemma serialize_mtime_suffix_witness :
  exists r, serialize "https://cms.example" demo_url demo_path demo_display demo_date
              fs_present stored_upload = Ok r /\
            Serialized.thumbnailUrl r
            = Some ("https://cms.example/media/sites/1/2022/01/A_thumbnail.jpg"
                    ++ "?" ++ "1642291200.0").
Proof.
  apply (serialize_mtime_suffix "https://cms.example" demo_url demo_path demo_display
           demo_date fs_present stored_upload); reflexivity.
Defined.

(** ** Migration 0005: further properties *)

(** [add_roles] is idempotent: the permission set of a group is a set. *)
Theorem add_roles_idempotent (st st' : Migration0005.apps) :
  Migration0005.add_roles st = Ok st' -> Migration0005.add_roles st' = Ok st'.
Proof.
  unfold Migration0005.add_roles, Migration0005.group_get, bind.
  destruct (Migration0005.groups st !! "MANAGEMENT") as [ps|] eqn:Hg; [|discriminate].
  destruct (Migration0005.permission_get st "delete_imprintpage") as [p|e] eqn:Hp;
    [|discriminate].
  intros H; injection H as <-.
  unfold Migration0005.set_group. simpl. rewrite lookup_insert_eq.
  unfold Migration0005.permission_get in *. simpl. rewrite Hp.
  rewrite insert_insert_eq.
  replace (ps ∪ {[p]} ∪ {[p]}) with (ps ∪ {[p]}) by set_solver.
  reflexivity.
Qed.

Lemma add_roles_idempotent_witness :
  exists st', Migration0005.add_roles demo_apps = Ok st' /\
              Migration0005.add_roles st' = Ok st'.
Proof.
  eexists. split; [reflexivity|].
  apply (add_roles_idempotent demo_apps). reflexivity.
Defined.

(** Both directions of the migration change only the [MANAGEMENT] group:
    every other group and the permission rows are left as they are. *)
Theorem migration0005_only_management (st st' : Migration0005.apps) :
  (Migration0005.add_roles st = Ok st' \/ Migration0005.remove_roles st = Ok st') ->
  Migration0005.permissions st' = Migration0005.permissions st /\
  forall g, g <> "MANAGEMENT" ->
    Migration0005.groups st' !! g = Migration0005.groups st !! g.
Proof.
  unfold Migration0005.add_roles, Migration0005.remove_roles, bind.
  destruct (Migration0005.group_get st "MANAGEMENT"); [|intros [H|H]; discriminate].
  destruct (Migration0005.permission_get st "delete_imprintpage");
    [|intros [H|H]; discriminate].
  intros [H|H]; injection H as <-; unfold Migration0005.set_group; simpl;
    (split; [reflexivity | intros g Hg; now rewrite lookup_insert_ne]).
Qed.

Lemma migration0005_only_management_witness :
  exists st', Migration0005.add_roles demo_apps = Ok st' /\
    Migration0005.permissions st' = Migration0005.permissions demo_apps /\
    Migration0005.groups st' !! "EDITOR" = Migration0005.groups demo_apps !! "EDITOR".
Proof.
  eexists. split; [reflexivity|].
  destruct (migration0005_only_management demo_apps _ (or_introl eq_refl)) as [Hp Hg].
  split; [exact Hp | apply Hg; discriminate].
Defined.

(** Reverting after applying gives the state of reverting alone: if
    [MANAGEMENT] already held the permission, the round trip removes it. *)
Theorem remove_roles_after_add_roles (st st' : Migration0005.apps) :
  Migration0005.add_roles st = Ok st' ->
  Migration0005.remove_roles st' = Migration0005.remove_roles st.
Proof.
  unfold Migration0005.add_roles, Migration0005.remove_roles,
    Migration0005.group_get, bind.
  destruct (Migration0005.groups st !! "MANAGEMENT") as [ps|] eqn:Hg; [|discriminate].
  destruct (Migration0005.permission_get st "delete_imprintpage") as [p|e] eqn:Hp;
    [|discriminate].
  intros H; injection H as <-.
  unfold Migration0005.set_group. simpl. rewrite lookup_insert_eq.
  unfold Migration0005.permission_get in *. simpl. rewrite Hp.
  rewrite insert_insert_eq.
  replace ((ps ∪ {[p]}) ∖ {[p]}) with (ps ∖ {[p]}) by set_solver.
  reflexivity.
Qed.

Lemma remove_roles_after_add_roles_witness :
  exists st', Migration0005.add_roles holding_apps = Ok st' /\
    Migration0005.remove_roles st' = Migration0005.remove_roles holding_apps.
Proof.
  eexists. split; [reflexivity|].
  apply (remove_roles_after_add_roles holding_apps). reflexivity.
Defined.

(** The lookups of the migration fail as [Model.objects.get] does: a
    missing [MANAGEMENT] group raises [DoesNotExist], and so does a missing
    permission; two permissions with the codename [delete_imprintpage]
    raise [MultipleObjectsReturned]. Both directions fail alike. *)
Theorem migration0005_lookup_errors (st : Migration0005.apps) :
  (Migration0005.groups st !! "MANAGEMENT" = None ->
   Migration0005.add_roles st = Raise DoesNotExist /\
   Migration0005.remove_roles st = Raise DoesNotExist) /\
  (Migration0005.groups st !! "MANAGEMENT" <> None ->
   List.filter (fun p => String.eqb (Migration0005.codename p) "delete_imprintpage")
     (Migration0005.permissions st) = [] ->
   Migration0005.add_roles st = Raise DoesNotExist /\
   Migration0005.remove_roles st = Raise DoesNotExist) /\
  (Migration0005.groups st !! "MANAGEMENT" <> None ->
   2 <= length (List.filter
          (fun p => String.eqb (Migration0005.codename p) "delete_imprintpage")
          (Migration0005.permissions st)) ->
   Migration0005.add_roles st = Raise MultipleObjectsReturned /\
   Migration0005.remove_roles st = Raise MultipleObjectsReturned).
Proof.
  unfold Migration0005.add_roles, Migration0005.remove_roles,
    Migration0005.group_get, Migration0005.permission_get, bind.
  destruct (Migration0005.groups st !! "MANAGEMENT") as [ps|];
    [|split; [split; reflexivity | split; intros H; contradiction]].
  split; [discriminate|]. split; intros _.
  - intros H; rewrite H; split; reflexivity.
  - destruct (List.filter _ _) as [|a [|b l]]; simpl; intros H; [lia | lia |].
    split; reflexivity.
Qed.

Lemma migration0005_lookup_errors_witness :
  Migration0005.add_roles no_management_apps = Raise DoesNotExist /\
  Migration0005.remove_roles no_management_apps = Raise DoesNotExist.
Proof.
  destruct (migration0005_lookup_errors no_management_apps) as [H _].
  apply H. reflexivity.
Defined.

(** ** Sites: further properties *)




